(** * The deployment template of the serverless image handler

    A shallow embedding of [source/constructs/lib/constructs-stack.ts]:
    the constructor of [ConstructsStack] is a linear sequence of
    declarations appended to an in-memory construct tree.  The tree is
    modelled as explicit state, construction errors (a duplicate
    construct id, a failed child lookup, a string view of a list
    parameter) as an error monad on top of it. *)

From Stdlib Require Import String Ascii List ZArith Lia.
From stdpp Require Import base option list strings gmap.

Local Open Scope string_scope.

(** ** JavaScript values that reach the template *)

Module Js.

(** A property of [process.env] is a string or [undefined]. *)
Definition value := option string.

Definition undefined : value := None.

(** [`${v}`]: a template literal applies ToString to its hole. *)
Definition to_string (v : value) : string :=
  match v with
  | Some s => s
  | None => "undefined"
  end.

End Js.

(** ** Construction errors *)

Inductive error : Type :=
| DuplicateConstruct (id : string)
| NoSuchChild (id : string)
| NotAStringType (type : string)
| Upstream (msg : string). (* raised inside the nested construct *)

Inductive result (A : Type) : Type :=
| Ok (a : A)
| Throw (e : error).

Arguments Ok {A} a.
Arguments Throw {A} e.

(** ** Data model of the construct library *)

(** The value expressions the stack uses: [{Ref: id}] and
    [{Fn::Sub: body}]. *)
Inductive Value : Type :=
| Ref (logicalId : string)
| FnSub (body : string).

Record CfnParameterProps : Type := mkCfnParameterProps {
  type : string;
  description : option string;
  default_ : option string;
  allowedValues : option (list string);
  allowedPattern : option string
}.

Record CfnParameter : Type := mkCfnParameter {
  p_id : string;
  p_logicalId : string;
  p_props : CfnParameterProps
}.

Record CfnMapping : Type := mkCfnMapping {
  m_id : string;
  m_logicalId : string;
  mapping : list (string * list (string * string))
}.

Record CfnCondition : Type := mkCfnCondition {
  c_id : string;
  c_logicalId : string
}.

Record CfnResource : Type := mkCfnResource {
  r_id : string;
  r_logicalId : string;
  r_type : string
}.

(** What the nested image handler construct holds: conditions and
    resources. *)
Inductive SubChild : Type :=
| SubCondition (c : CfnCondition)
| SubResource (r : CfnResource).

Definition sub_id (c : SubChild) : string :=
  match c with
  | SubCondition c => c_id c
  | SubResource r => r_id r
  end.

Definition sub_logicalId (c : SubChild) : string :=
  match c with
  | SubCondition c => c_logicalId c
  | SubResource r => r_logicalId r
  end.

Record Construct : Type := mkConstruct {
  n_id : string;
  n_children : list SubChild
}.

(** [condition] holds whatever object the caller passes: the source
    casts the looked-up child with [as cdk.CfnCondition], which checks
    nothing when the program runs. *)
Record CfnOutput : Type := mkCfnOutput {
  o_id : string;
  o_logicalId : string;
  o_value : Value;
  o_description : option string;
  o_condition : option SubChild
}.

Inductive Child : Type :=
| ChParameter (p : CfnParameter)
| ChMapping (m : CfnMapping)
| ChConstruct (c : Construct)
| ChOutput (o : CfnOutput).

Definition child_id (c : Child) : string :=
  match c with
  | ChParameter p => p_id p
  | ChMapping m => m_id m
  | ChConstruct c => n_id c
  | ChOutput o => o_id o
  end.

Record ParameterGroup : Type := mkParameterGroup {
  Label : string;
  Parameters : list string
}.

Record TemplateOptions : Type := mkTemplateOptions {
  t_description : option string;
  templateFormatVersion : option string;
  metadata : option (list ParameterGroup)
}.

(** The stack under construction: the id argument of its constructor,
    its children in declaration order and its template options. *)
Record Stack : Type := mkStack {
  stack_id : string;
  children : list Child;
  templateOptions : TemplateOptions
}.

Record ServerlessImageHandlerProps : Type := mkServerlessImageHandlerProps {
  corsEnabledParameter : CfnParameter;
  corsOriginParameter : CfnParameter;
  sourceBucketsParameter : CfnParameter;
  deployDemoUiParameter : CfnParameter;
  logRetentionPeriodParameter : CfnParameter;
  autoWebPParameter : CfnParameter
}.

(** ** The builder monad: state of the stack, with errors *)

Definition M (A : Type) : Type := Stack -> result (A * Stack).

Definition ret {A} (a : A) : M A := fun s => Ok (a, s).

Definition bind {A B} (m : M A) (k : A -> M B) : M B :=
  fun s =>
    match m s with
    | Ok (a, s') => k a s'
    | Throw e => Throw e
    end.

Definition lift {A} (r : result A) : M A :=
  fun s =>
    match r with
    | Ok a => Ok (a, s)
    | Throw e => Throw e
    end.

Declare Scope build_scope.
Delimit Scope build_scope with build.

Notation "'let!' x ':=' m 'in' k" := (bind m (fun x => k))
  (at level 10, x name, m at level 100, k at level 200) : build_scope.
Notation "m ';;' k" := (bind m (fun _ => k))
  (at level 100, k at level 200, right associativity) : build_scope.

(** ** Operations of the construct library *)

Module Cdk.

(** The construct ids taken in the stack. *)
Definition ids (s : Stack) : list string := map child_id (children s).

Definition has_child (id : string) (s : Stack) : bool :=
  existsb (fun c => String.eqb (child_id c) id) (children s).

(** A construct registers itself with its scope; an id already taken
    in that scope is an error. *)
Definition addChild (c : Child) : M unit :=
  fun s =>
    if has_child (child_id c) s
    then Throw (DuplicateConstruct (child_id c))
    else Ok (tt, mkStack (stack_id s) (children s ++ [c]) (templateOptions s)).

(** The logical id of an element declared directly in the stack is
    its construct id (all ids of this stack are alphanumeric and
    short, so nothing is stripped and no hash is appended). *)
Definition newCfnParameter (id : string) (props : CfnParameterProps)
  : M CfnParameter :=
  let p := mkCfnParameter id id props in
  (addChild (ChParameter p) ;; ret p)%build.

Definition newCfnMapping (id : string)
  (m : list (string * list (string * string))) : M CfnMapping :=
  let x := mkCfnMapping id id m in
  (addChild (ChMapping x) ;; ret x)%build.

(** [new CfnOutput(...)] returns a handle on the declared output:
    its construct id, under which later calls find it in the tree. *)
Definition newCfnOutput (id : string) (value : Value)
  (descr : option string) (condition : option SubChild) : M string :=
  (addChild (ChOutput (mkCfnOutput id id value descr condition)) ;;
   ret id)%build.

Definition override_child (id newLogicalId : string) (c : Child) : Child :=
  match c with
  | ChOutput o =>
      if String.eqb (o_id o) id
      then ChOutput (mkCfnOutput (o_id o) newLogicalId (o_value o)
                       (o_description o) (o_condition o))
      else c
  | _ => c
  end.

(** [handle.overrideLogicalId(newLogicalId)] mutates the output that
    is already in the tree. *)
Definition overrideLogicalId (handle newLogicalId : string) : M unit :=
  fun s =>
    Ok (tt, mkStack (stack_id s)
              (map (override_child handle newLogicalId) (children s))
              (templateOptions s)).

Definition setDescription (d : string) : M unit :=
  fun s =>
    let o := templateOptions s in
    Ok (tt, mkStack (stack_id s) (children s)
              (mkTemplateOptions (Some d) (templateFormatVersion o) (metadata o))).

Definition setTemplateFormatVersion (v : string) : M unit :=
  fun s =>
    let o := templateOptions s in
    Ok (tt, mkStack (stack_id s) (children s)
              (mkTemplateOptions (t_description o) (Some v) (metadata o))).

Definition setMetadata (g : list ParameterGroup) : M unit :=
  fun s =>
    let o := templateOptions s in
    Ok (tt, mkStack (stack_id s) (children s)
              (mkTemplateOptions (t_description o) (templateFormatVersion o) (Some g))).

(** [node.findChild(id)]: the child of that id, an error when there
    is none. *)
Definition findChild (node : Construct) (id : string) : result SubChild :=
  match find (fun c => String.eqb (sub_id c) id) (n_children node) with
  | Some c => Ok c
  | None => Throw (NoSuchChild id)
  end.

Fixpoint prefixb (p s : string) : bool :=
  match p, s with
  | EmptyString, _ => true
  | String a p', String b s' => Ascii.eqb a b && prefixb p' s'
  | String _ _, EmptyString => false
  end.

(** [s.indexOf(p) >= 0] *)
Fixpoint contains (p s : string) : bool :=
  prefixb p s ||
  match s with
  | EmptyString => false
  | String _ s' => contains p s'
  end.

Definition isListType (t : string) : bool :=
  contains "List<" t || contains "CommaDelimitedList" t.

Definition isNumberType (t : string) : bool := String.eqb t "Number".

Definition isStringType (t : string) : bool :=
  negb (isListType t) && negb (isNumberType t).

(** [parameter.valueAsString]: a reference to the parameter, refused
    for a parameter that is neither of a string type nor a number,
    that is, for the list types. *)
Definition valueAsString (p : CfnParameter) : result Value :=
  if isStringType (type (p_props p)) || isNumberType (type (p_props p))
  then Ok (Ref (p_logicalId p))
  else Throw (NotAStringType (type (p_props p))).

Definition Fn_sub (body : string) : Value := FnSub body.
Definition Fn_ref (logicalName : string) : Value := Ref logicalName.

(** [super(scope, id, props)]: a stack with no children and no
    template options yet.  The model keeps the id as it is given and
    takes it to be one the library accepts; the scope, the props and
    the stack name the library derives from them are left out. *)
Definition newStack (id : string) : Stack :=
  mkStack id [] (mkTemplateOptions None None None).

End Cdk.

(** ** The module and its stack *)

(** [const { VERSION } = process.env;] runs when the module is loaded:
    the module keeps the value the variable had at that moment. *)
Record ModuleScope : Type := mkModuleScope {
  VERSION : Js.value
}.

Definition load_module (process_env : gmap string string) : ModuleScope :=
  mkModuleScope (process_env !! "VERSION").

Definition description_text : string :=
  "(SO0023) - Serverless Image Handler with aws-solutions-constructs: This template deploys and configures a serverless architecture that is optimized for dynamic image manipulation and delivery at low latency and cost. Leverages SharpJS for image processing. Template version ".

Definition LogRetentionPeriod_allowedValues : list string :=
  [ "1"; "3"; "5"; "7"; "14"; "30"; "60"; "90"; "120"; "150"; "180";
    "365"; "400"; "545"; "731"; "1827"; "3653" ].

Section ConstructsStack.

(** The nested construct [ServerlessImageHandler] is defined in
    another module ([./serverless-image-handler]); the stack only
    calls its constructor and looks two of its children up.  Its
    constructor is a parameter of the model: from the props to the
    children it creates, or an error. *)
Variable ServerlessImageHandler :
  ServerlessImageHandlerProps -> result (list SubChild).

Definition newServerlessImageHandler (id : string)
  (props : ServerlessImageHandlerProps) : M Construct :=
  fun s =>
    if Cdk.has_child id s then Throw (DuplicateConstruct id)
    else
      match ServerlessImageHandler props with
      | Ok kids =>
          let node := mkConstruct id kids in
          Ok (node, mkStack (stack_id s) (children s ++ [ChConstruct node])
                      (templateOptions s))
      | Throw e => Throw e
      end.

Local Open Scope build_scope.

(** The body of the constructor, statement by statement. *)
Definition constructor (md : ModuleScope) : M unit :=
  (* CFN parameters *)
  let! corsEnabledParameter :=
    Cdk.newCfnParameter "CorsEnabled"
      {| type := "String";
         description := Some "Would you like to enable Cross-Origin Resource Sharing (CORS) for the image handler API? Select 'Yes' if so.";
         default_ := Some "No";
         allowedValues := Some [ "Yes"; "No" ];
         allowedPattern := None |} in
  let! corsOriginParameter :=
    Cdk.newCfnParameter "CorsOrigin"
      {| type := "String";
         description := Some "If you selected 'Yes' above, please specify an origin value here. Supports multiple origins given either as comma-separated string or RegExp.";
         default_ := Some "*";
         allowedValues := None;
         allowedPattern := None |} in
  let! sourceBucketsParameter :=
    Cdk.newCfnParameter "SourceBuckets"
      {| type := "String";
         description := Some "(Required) List the buckets (comma-separated) within your account that contain original image files. If you plan to use Thumbor or Custom image requests with this solution, the source bucket for those requests will be the first bucket listed in this field.";
         default_ := Some "defaultBucket, bucketNo2, bucketNo3, ...";
         allowedValues := None;
         allowedPattern := Some ".+" |} in
  let! deployDemoUiParameter :=
    Cdk.newCfnParameter "DeployDemoUI"
      {| type := "String";
         description := Some "Would you like to deploy a demo UI to explore the features and capabilities of this solution? This will create an additional Amazon S3 bucket and Amazon CloudFront distribution in your account.";
         default_ := Some "Yes";
         allowedValues := Some [ "Yes"; "No" ];
         allowedPattern := None |} in
  let! logRetentionPeriodParameter :=
    Cdk.newCfnParameter "LogRetentionPeriod"
      {| type := "Number";
         description := Some "This solution automatically logs events to Amazon CloudWatch. Select the amount of time for CloudWatch logs from this solution to be retained (in days).";
         default_ := Some "1";
         allowedValues := Some LogRetentionPeriod_allowedValues;
         allowedPattern := None |} in
  let! autoWebPParameter :=
    Cdk.newCfnParameter "AutoWebP"
      {| type := "String";
         description := Some "Would you like to enable automatic WebP based on accept headers? Select 'Yes' if so.";
         default_ := Some "No";
         allowedValues := Some [ "Yes"; "No" ];
         allowedPattern := None |} in
  (* CFN description *)
  Cdk.setDescription (description_text +:+ Js.to_string (VERSION md)) ;;
  (* CFN template format version *)
  Cdk.setTemplateFormatVersion "2010-09-09" ;;
  (* CFN metadata *)
  Cdk.setMetadata
    [ {| Label := "CORS Options";
         Parameters := [ p_logicalId corsEnabledParameter;
                         p_logicalId corsOriginParameter ] |};
      {| Label := "Image Sources";
         Parameters := [ p_logicalId sourceBucketsParameter ] |};
      {| Label := "Demo UI";
         Parameters := [ p_logicalId deployDemoUiParameter ] |};
      {| Label := "Event Logging";
         Parameters := [ p_logicalId logRetentionPeriodParameter ] |} ] ;;
  (* Mappings *)
  let! _send :=
    Cdk.newCfnMapping "Send" [ ("AnonymousUsage", [ ("Data", "Yes") ]) ] in
  (* Serverless Image Handler props *)
  let sihProps :=
    {| corsEnabledParameter := corsEnabledParameter;
       corsOriginParameter := corsOriginParameter;
       sourceBucketsParameter := sourceBucketsParameter;
       deployDemoUiParameter := deployDemoUiParameter;
       logRetentionPeriodParameter := logRetentionPeriodParameter;
       autoWebPParameter := autoWebPParameter |} in
  (* Serverless Image Handler Construct *)
  let! serverlessImageHander :=
    newServerlessImageHandler "ServerlessImageHandler" sihProps in
  (* Outputs *)
  let! _o1 :=
    Cdk.newCfnOutput "ApiEndpoint"
      (Cdk.Fn_sub "https://${ImageHandlerDistribution.DomainName}")
      (Some "Link to API endpoint for sending image requests to.")
      None in
  let! demoCondition :=
    lift (Cdk.findChild serverlessImageHander "DeployDemoUICondition") in
  let! _o2 :=
    Cdk.newCfnOutput "DemoUrl"
      (Cdk.Fn_sub "https://${DemoDistribution.DomainName}/index.html")
      (Some "Link to the demo user interface for the solution.")
      (Some demoCondition) in
  let! sourceBucketsValue := lift (Cdk.valueAsString sourceBucketsParameter) in
  let! o3 :=
    Cdk.newCfnOutput "SourceBucketsOutput" sourceBucketsValue
      (Some "Amazon S3 bucket location containing original image files.")
      None in
  Cdk.overrideLogicalId o3 "SourceBuckets" ;;
  let! corsEnabledValue := lift (Cdk.valueAsString corsEnabledParameter) in
  let! o4 :=
    Cdk.newCfnOutput "CorsEnabledOutput" corsEnabledValue
      (Some "Indicates whether Cross-Origin Resource Sharing (CORS) has been enabled for the image handler API.")
      None in
  Cdk.overrideLogicalId o4 "CorsEnabled" ;;
  let! corsOriginValue := lift (Cdk.valueAsString corsOriginParameter) in
  let! corsCondition :=
    lift (Cdk.findChild serverlessImageHander "EnableCorsCondition") in
  let! o5 :=
    Cdk.newCfnOutput "CorsOriginOutput" corsOriginValue
      (Some "Origin value returned in the Access-Control-Allow-Origin header of image handler API responses.")
      (Some corsCondition) in
  Cdk.overrideLogicalId o5 "CorsOrigin" ;;
  let! o6 :=
    Cdk.newCfnOutput "LogRetentionPeriodOutput"
      (Cdk.Fn_ref "LogRetentionPeriod")
      (Some "Number of days for event logs from Lambda to be retained in CloudWatch.")
      None in
  Cdk.overrideLogicalId o6 "LogRetentionPeriod".

(** [new ConstructsStack(scope, id, props)] *)
Definition ConstructsStack (md : ModuleScope) (id : string) : result Stack :=
  match constructor md (Cdk.newStack id) with
  | Ok (_, s) => Ok s
  | Throw e => Throw e
  end.

End ConstructsStack.

(** Modelled from the spec: the constructor of the nested construct
    [ServerlessImageHandler], whose module is not part of the sources
    at hand.  The specification says it creates its own conditions,
    named [DeployDemoUICondition] and [EnableCorsCondition], and its
    resources, an API distribution and a demo distribution, which the
    outputs of the stack reach as [ImageHandlerDistribution] and
    [DemoDistribution]. *)
Definition ServerlessImageHandler_spec
  (props : ServerlessImageHandlerProps) : result (list SubChild) :=
  Ok [ SubCondition (mkCfnCondition "DeployDemoUICondition" "DeployDemoUICondition");
       SubCondition (mkCfnCondition "EnableCorsCondition" "EnableCorsCondition");
       SubResource (mkCfnResource "ImageHandlerDistribution"
                      "ImageHandlerDistribution" "AWS::CloudFront::Distribution");
       SubResource (mkCfnResource "DemoDistribution"
                      "DemoDistribution" "AWS::CloudFront::Distribution") ].

(** A nested construct that does not honour the contract: it creates no
    condition at all. *)
Definition ServerlessImageHandler_bare
  (props : ServerlessImageHandlerProps) : result (list SubChild) :=
  Ok [].

(** ** Reading the built template *)

Definition parameters_of (s : Stack) : list CfnParameter :=
  omap (fun c => match c with ChParameter p => Some p | _ => None end)
       (children s).

Definition outputs_of (s : Stack) : list CfnOutput :=
  omap (fun c => match c with ChOutput o => Some o | _ => None end)
       (children s).

Definition mappings_of (s : Stack) : list CfnMapping :=
  omap (fun c => match c with ChMapping m => Some m | _ => None end)
       (children s).

Definition declared_parameters (s : Stack) : list string :=
  map p_logicalId (parameters_of s).

Definition parameter_groups (s : Stack) : list ParameterGroup :=
  default [] (metadata (templateOptions s)).

Definition grouped_parameters (s : Stack) : list string :=
  concat (map Parameters (parameter_groups s)).

Definition find_parameter (s : Stack) (logicalId : string) : option CfnParameter :=
  find (fun p => String.eqb (p_logicalId p) logicalId) (parameters_of s).

Definition find_output (s : Stack) (id : string) : option CfnOutput :=
  find (fun o => String.eqb (o_id o) id) (outputs_of s).

(** What a declaration registers: a name, a type, a description and a
    default. *)
Definition registered (p : CfnParameter) : Prop :=
  p_id p <> "" /\ p_logicalId p = p_id p /\
  (type (p_props p) = "String" \/ type (p_props p) = "Number") /\
  is_Some (description (p_props p)) /\
  is_Some (default_ (p_props p)).

(** A declared constraint: an enumerated set of allowed values, or the
    pattern of the non-empty strings. *)
Definition constrained (p : CfnParameter) : Prop :=
  is_Some (allowedValues (p_props p)) \/
  allowedPattern (p_props p) = Some ".+".

Definition unconstrained (p : CfnParameter) : Prop :=
  allowedValues (p_props p) = None /\ allowedPattern (p_props p) = None.

(** An output whose logical id was overridden after its declaration. *)
Definition overridden (o : CfnOutput) : bool :=
  negb (String.eqb (o_logicalId o) (o_id o)).

(** The groups that list a name. *)
Definition groups_holding (x : string) (groups : list (list string))
  : list (list string) :=
  List.filter (fun g => existsb (String.eqb x) g) groups.

(** The groups partition a set of names: every name of the set is in
    exactly one group, and no group holds a name that is not in the
    set. *)
Definition partitions (groups : list (list string)) (names : list string) : Prop :=
  (forall x, x ∈ names -> length (groups_holding x groups) = 1) /\
  (forall g, g ∈ groups -> forall x, x ∈ g -> x ∈ names).

(** ** What the provisioning engine does with the template *)

Module Cfn.

(** *** Parameter values *)

(** The value of a parameter at deployment: the one the operator
    supplies, the declared default when there is none. *)
Definition effective_value (supplied : gmap string string)
  (p : CfnParameter) : option string :=
  match supplied !! p_logicalId p with
  | Some v => Some v
  | None => default_ (p_props p)
  end.

Definition digit_of (a : ascii) : option Z :=
  let n := Z.of_nat (nat_of_ascii a) in
  if (48 <=? n)%Z && (n <=? 57)%Z then Some (n - 48)%Z else None.

Fixpoint parse_digits (acc : Z) (s : string) : option Z :=
  match s with
  | EmptyString => Some acc
  | String a s' =>
      match digit_of a with
      | Some d => parse_digits (10 * acc + d)%Z s'
      | None => None
      end
  end.

(** Unsigned decimal integers, the only numbers this template uses. *)
Definition parse_number (s : string) : option Z :=
  match s with
  | EmptyString => None
  | _ => parse_digits 0%Z s
  end.

Inductive ParamValue : Type :=
| PString (s : string)
| PNumber (n : Z).

(** A parameter of type [Number] is read as a number. *)
Definition typed (t : string) (v : string) : option ParamValue :=
  if String.eqb t "Number" then PNumber <$> parse_number v
  else Some (PString v).

Definition parameter_value (supplied : gmap string string)
  (p : CfnParameter) : option ParamValue :=
  effective_value supplied p ≫= typed (type (p_props p)).

(** *** Allowed patterns *)

Inductive regex : Type :=
| RNone
| REps
| RDot
| RChr (a : ascii)
| RSeq (r1 r2 : regex)
| RAlt (r1 r2 : regex)
| RStar (r : regex).

(** [.] stands for any character but a line break.  Values are byte
    strings here, and the line breaks told apart are the two of ASCII,
    line feed and carriage return: on values written in ASCII this is
    the whole of what [.] refuses. *)
Definition line_terminator (a : ascii) : bool :=
  Ascii.eqb a "010"%char || Ascii.eqb a "013"%char.

Definition metachar (a : ascii) : bool :=
  existsb (Ascii.eqb a)
    (list_ascii_of_string "\^$.|?*+()[]{}").

Definition atom (a : ascii) : option regex :=
  if Ascii.eqb a "."%char then Some RDot
  else if metachar a then None
  else Some (RChr a).

(** The fragment of the pattern language made of single characters
    and [.], each with an optional [*], [+] or [?]; anything else is
    not parsed. *)
Fixpoint parse (s : list ascii) : option regex :=
  match s with
  | [] => Some REps
  | a :: rest =>
      match atom a with
      | None => None
      | Some r =>
          match rest with
          | q :: rest' =>
              if Ascii.eqb q "*"%char
              then RSeq (RStar r) <$> parse rest'
              else if Ascii.eqb q "+"%char
              then RSeq (RSeq r (RStar r)) <$> parse rest'
              else if Ascii.eqb q "?"%char
              then RSeq (RAlt r REps) <$> parse rest'
              else RSeq r <$> parse rest
          | [] => RSeq r <$> parse rest
          end
      end
  end.

Fixpoint nullable (r : regex) : bool :=
  match r with
  | RNone => false
  | REps => true
  | RDot => false
  | RChr _ => false
  | RSeq r1 r2 => nullable r1 && nullable r2
  | RAlt r1 r2 => nullable r1 || nullable r2
  | RStar _ => true
  end.

Fixpoint deriv (a : ascii) (r : regex) : regex :=
  match r with
  | RNone => RNone
  | REps => RNone
  | RDot => if line_terminator a then RNone else REps
  | RChr b => if Ascii.eqb a b then REps else RNone
  | RSeq r1 r2 =>
      if nullable r1
      then RAlt (RSeq (deriv a r1) r2) (deriv a r2)
      else RSeq (deriv a r1) r2
  | RAlt r1 r2 => RAlt (deriv a r1) (deriv a r2)
  | RStar r1 => RSeq (deriv a r1) (RStar r1)
  end.

Fixpoint accepts (r : regex) (s : list ascii) : bool :=
  match s with
  | [] => nullable r
  | a :: s' => accepts (deriv a r) s'
  end.

(** The words a pattern denotes. *)
Inductive lang : regex -> list ascii -> Prop :=
| LEps : lang REps []
| LDot a : line_terminator a = false -> lang RDot [a]
| LChr a : lang (RChr a) [a]
| LSeq r1 r2 s1 s2 : lang r1 s1 -> lang r2 s2 -> lang (RSeq r1 r2) (s1 ++ s2)
| LAltL r1 r2 s : lang r1 s -> lang (RAlt r1 r2) s
| LAltR r1 r2 s : lang r2 s -> lang (RAlt r1 r2) s
| LStarNil r : lang (RStar r) []
| LStarCons r a s1 s2 :
    lang r (a :: s1) -> lang (RStar r) s2 -> lang (RStar r) (a :: s1 ++ s2).

Definition ascii_only (v : string) : Prop :=
  Forall (fun a => nat_of_ascii a < 128) (list_ascii_of_string v).

(** A value without a line break. *)
Definition plain (s : list ascii) : Prop :=
  Forall (fun a => line_terminator a = false) s.

(** The whole value has to match the pattern. *)
Definition matches_pattern (pattern value : string) : bool :=
  match parse (list_ascii_of_string pattern) with
  | Some r => accepts r (list_ascii_of_string value)
  | None => false
  end.

(** *** The constraint a parameter declares on its own values *)

Definition satisfies (p : CfnParameterProps) (v : string) : Prop :=
  (forall vs, allowedValues p = Some vs -> v ∈ vs) /\
  (forall pat, allowedPattern p = Some pat -> matches_pattern pat v = true).

(** *** Conditions and outputs *)

(** The engine evaluates every condition of the template to a
    boolean, by logical id; an output that carries a condition is
    created when its condition is true, an output without one
    always. *)
Definition evaluates_true (gates : gmap string bool) (c : CfnCondition) : bool :=
  default false (gates !! c_logicalId c).

Definition emitted (gates : gmap string bool) (o : CfnOutput) : bool :=
  match o_condition o with
  | None => true
  | Some (SubCondition c) => evaluates_true gates c
  | Some (SubResource _) => false
  end.

Definition emitted_outputs (gates : gmap string bool) (s : Stack)
  : list CfnOutput :=
  List.filter (emitted gates) (outputs_of s).

(** The value the engine gives the parameter of that name. *)
Definition deployed_value (s : Stack) (supplied : gmap string string)
  (name : string) : option ParamValue :=
  find_parameter s name ≫= parameter_value supplied.

End Cfn.

(** ** The process around the module *)

(** What happens to the environment of the process after the module is
    loaded. *)
Inductive env_action : Type :=
| SetEnv (k v : string)
| DeleteEnv (k : string).

Record World : Type := mkWorld {
  process_env : gmap string string;
  module_scope : ModuleScope
}.

(** Loading the module reads [process.env] once. *)
Definition import_module (env : gmap string string) : World :=
  mkWorld env (load_module env).

Definition env_step (w : World) (a : env_action) : World :=
  match a with
  | SetEnv k v => mkWorld (<[k := v]> (process_env w)) (module_scope w)
  | DeleteEnv k => mkWorld (delete k (process_env w)) (module_scope w)
  end.

(** Building the stack in a world: the constructor sees the module's
    constant. *)
Definition build (sih : ServerlessImageHandlerProps -> result (list SubChild))
  (w : World) (id : string) : result Stack :=
  ConstructsStack sih (module_scope w) id.

(** A whole run: load the module, let the environment change, build. *)
Definition run (sih : ServerlessImageHandlerProps -> result (list SubChild))
  (env : gmap string string) (later : list env_action) (id : string)
  : result Stack :=
  build sih (fold_left env_step later (import_module env)) id.

(** The stack of a given version built around the nested construct as
    the specification describes it. *)
Definition reference_stack (v : Js.value) : result Stack :=
  ConstructsStack ServerlessImageHandler_spec (mkModuleScope v) "ConstructsStack".

(** The contract the stack relies on: the nested construct is built
    without error and holds the two conditions under their names. *)
Definition honours_contract
  (sih : ServerlessImageHandlerProps -> result (list SubChild)) : Prop :=
  forall props, exists kids demo cors,
    sih props = Ok kids /\
    find (fun c => String.eqb (sub_id c) "DeployDemoUICondition") kids
      = Some (SubCondition demo) /\
    find (fun c => String.eqb (sub_id c) "EnableCorsCondition") kids
      = Some (SubCondition cors).

(** ** Further readings of the built template *)

(** The node of the nested construct in the tree. *)
Definition nested_construct (s : Stack) : option Construct :=
  head (omap (fun c => match c with ChConstruct n => Some n | _ => None end)
             (children s)).

(** The props record made of the parameters the stack declares, each
    field holding the parameter declared under the matching id. *)
Definition sihProps_of (s : Stack) : option ServerlessImageHandlerProps :=
  a ← find_parameter s "CorsEnabled";
  b ← find_parameter s "CorsOrigin";
  c ← find_parameter s "SourceBuckets";
  d ← find_parameter s "DeployDemoUI";
  e ← find_parameter s "LogRetentionPeriod";
  f ← find_parameter s "AutoWebP";
  Some (mkServerlessImageHandlerProps a b c d e f).

Fixpoint assoc {A} (k : string) (l : list (string * A)) : option A :=
  match l with
  | [] => None
  | (k', a) :: l' => if String.eqb k' k then Some a else assoc k l'
  end.

(** [{Fn::FindInMap: [map, top, second]}] *)
Definition find_in_map (s : Stack) (map top second : string) : option string :=
  m ← find (fun m => String.eqb (m_logicalId m) map) (mappings_of s);
  t ← assoc top (mapping m);
  assoc second t.

(** Nested constructs that break the contract, each in its own way:
    one holds the demo condition only, one holds resources under the
    names of the conditions, one fails. *)
Definition ServerlessImageHandler_no_cors
  (props : ServerlessImageHandlerProps) : result (list SubChild) :=
  Ok [ SubCondition (mkCfnCondition "DeployDemoUICondition" "DeployDemoUICondition") ].

Definition ServerlessImageHandler_miscast
  (props : ServerlessImageHandlerProps) : result (list SubChild) :=
  Ok [ SubResource (mkCfnResource "DeployDemoUICondition" "DemoBucket" "AWS::S3::Bucket");
       SubCondition (mkCfnCondition "EnableCorsCondition" "EnableCorsCondition") ].

Definition ServerlessImageHandler_failing
  (props : ServerlessImageHandlerProps) : result (list SubChild) :=
  Throw (Upstream "image handler").

(** * Properties *)

(** ** The pattern matcher *)

Module CfnFacts.
Import Cfn.

Lemma lang_eps_inv s : lang REps s -> s = [].
Proof. by inversion 1. Qed.

Lemma lang_dot_inv s :
  lang RDot s -> exists a, s = [a] /\ line_terminator a = false.
Proof. inversion 1; eauto. Qed.

Lemma lang_chr_inv b s : lang (RChr b) s -> s = [b].
Proof. by inversion 1. Qed.

Lemma lang_seq_inv r1 r2 s :
  lang (RSeq r1 r2) s ->
  exists s1 s2, s = (s1 ++ s2)%list /\ lang r1 s1 /\ lang r2 s2.
Proof. inversion 1; eauto. Qed.

Lemma lang_alt_inv r1 r2 s : lang (RAlt r1 r2) s -> lang r1 s \/ lang r2 s.
Proof. inversion 1; eauto. Qed.

Lemma lang_star_inv r s :
  lang (RStar r) s ->
  s = [] \/
  exists a s1 s2, s = (a :: s1 ++ s2)%list /\ lang r (a :: s1) /\ lang (RStar r) s2.
Proof. inversion 1; subst; eauto 8. Qed.

Lemma nullable_lang r : nullable r = true <-> lang r [].
Proof.
  induction r as [| | | b | r1 IH1 r2 IH2 | r1 IH1 r2 IH2 | r IH]; simpl.
  - split; [discriminate | inversion 1].
  - split; [constructor | done].
  - split; [discriminate | inversion 1].
  - split; [discriminate | inversion 1].
  - rewrite andb_true_iff, IH1, IH2. split.
    + intros [H1 H2]. change (@nil ascii) with (@nil ascii ++ [])%list.
      by constructor.
    + intros H. apply lang_seq_inv in H as (s1 & s2 & Heq & H1 & H2).
      symmetry in Heq. apply app_eq_nil in Heq as [-> ->]. done.
  - rewrite orb_true_iff, IH1, IH2. split.
    + intros [H | H]; [by apply LAltL | by apply LAltR].
    + apply lang_alt_inv.
  - split; [constructor | done].
Qed.

Lemma deriv_seq_intro a r1 r2 s :
  (forall s, lang (deriv a r1) s <-> lang r1 (a :: s)) ->
  lang (RSeq (deriv a r1) r2) s -> lang (RSeq r1 r2) (a :: s).
Proof.
  intros IH1 H. apply lang_seq_inv in H as (s1 & s2 & -> & H1 & H2).
  apply IH1 in H1. change (a :: s1 ++ s2)%list with ((a :: s1) ++ s2)%list.
  by constructor.
Qed.

Lemma deriv_seq_inv a r1 r2 s :
  (forall s, lang (deriv a r1) s <-> lang r1 (a :: s)) ->
  (forall s, lang (deriv a r2) s <-> lang r2 (a :: s)) ->
  lang (RSeq r1 r2) (a :: s) ->
  lang (RSeq (deriv a r1) r2) s \/ (lang r1 [] /\ lang (deriv a r2) s).
Proof.
  intros IH1 IH2 H. apply lang_seq_inv in H as (s1 & s2 & Heq & H1 & H2).
  destruct s1 as [| b s1]; simpl in Heq.
  - right. subst s2. split; [done | by apply IH2].
  - injection Heq as <- ->. left. constructor; [by apply IH1 | done].
Qed.

Lemma deriv_lang a r : forall s, lang (deriv a r) s <-> lang r (a :: s).
Proof.
  induction r as [| | | b | r1 IH1 r2 IH2 | r1 IH1 r2 IH2 | r IH];
    simpl; intros s.
  - split; inversion 1.
  - split; inversion 1.
  - destruct (line_terminator a) eqn:Ha; split; intros H.
    + inversion H.
    + apply lang_dot_inv in H as (b & [= <- ->] & Hb). congruence.
    + apply lang_eps_inv in H as ->. by constructor.
    + apply lang_dot_inv in H as (b & [= <- ->] & Hb). constructor.
  - destruct (Ascii.eqb_spec a b) as [-> | Hne]; split; intros H.
    + apply lang_eps_inv in H as ->. constructor.
    + apply lang_chr_inv in H as [= ->]. constructor.
    + inversion H.
    + apply lang_chr_inv in H as [= -> ->]. done.
  - destruct (nullable r1) eqn:Hn; split; intros H.
    + apply lang_alt_inv in H as [H | H]; [by apply deriv_seq_intro |].
      change (a :: s) with ([] ++ a :: s)%list. constructor.
      * by apply nullable_lang.
      * by apply IH2.
    + destruct (deriv_seq_inv a r1 r2 s IH1 IH2 H) as [H' | [_ H']];
        [by apply LAltL | by apply LAltR].
    + by apply deriv_seq_intro.
    + destruct (deriv_seq_inv a r1 r2 s IH1 IH2 H) as [H' | [H' _]]; [done |].
      apply nullable_lang in H'. congruence.
  - split; intros H.
    + apply lang_alt_inv in H as [H | H];
        [apply LAltL; by apply IH1 | apply LAltR; by apply IH2].
    + apply lang_alt_inv in H as [H | H];
        [apply LAltL; by apply IH1 | apply LAltR; by apply IH2].
  - split; intros H.
    + apply lang_seq_inv in H as (s1 & s2 & -> & H1 & H2).
      apply IH in H1. by constructor.
    + apply lang_star_inv in H as [[=] | (b & s1 & s2 & [= -> ->] & H1 & H2)].
      constructor; [by apply IH | done].
Qed.

(** The matcher decides the denotation. *)
Lemma accepts_lang s : forall r, accepts r s = true <-> lang r s.
Proof.
  induction s as [| a s IH]; intros r; simpl.
  - apply nullable_lang.
  - rewrite IH. apply deriv_lang.
Qed.

Lemma star_dot_plain s : lang (RStar RDot) s -> plain s.
Proof.
  induction s as [s IH] using (induction_ltof1 _ (@length ascii)).
  unfold ltof in IH. intros H.
  apply lang_star_inv in H as [-> | (a & s1 & s2 & -> & H1 & H2)].
  - constructor.
  - apply lang_dot_inv in H1 as (b & [= -> ->] & Hb). simpl.
    constructor; [done |]. apply IH; [simpl; lia | done].
Qed.

Lemma plain_star_dot s : plain s -> lang (RStar RDot) s.
Proof.
  induction 1 as [| a s Ha _ IH].
  - constructor.
  - change (a :: s) with (a :: [] ++ s)%list.
    constructor; [by constructor | done].
Qed.

(** The pattern of [SourceBuckets] is parsed, and it accepts exactly
    the non-empty values without a line break. *)
Lemma dot_plus_matches v :
  matches_pattern ".+" v = true <->
  v <> "" /\ plain (list_ascii_of_string v).
Proof.
  unfold matches_pattern. simpl parse. rewrite accepts_lang.
  assert (Hne : v <> "" <-> list_ascii_of_string v <> []).
  { destruct v; simpl; split; congruence. }
  rewrite Hne. generalize (list_ascii_of_string v) as s. clear. intros s. split.
  - intros H. apply lang_seq_inv in H as (s12 & s3 & -> & H12 & H3).
    apply lang_eps_inv in H3 as ->. rewrite app_nil_r.
    apply lang_seq_inv in H12 as (s1 & s2 & -> & H1 & H2).
    apply lang_dot_inv in H1 as (a & -> & Ha).
    apply star_dot_plain in H2. simpl. split; [done | by constructor].
  - intros [Hs Hp]. destruct s as [| a s]; [done |].
    inversion Hp; subst.
    replace (a :: s) with (([a] ++ s) ++ [])%list
      by (simpl; by rewrite app_nil_r).
    repeat constructor; [done | by apply plain_star_dot].
Qed.

End CfnFacts.

(** ** The construct tree *)

Module CdkFacts.
Import Cdk.

Lemma has_child_spec id s : has_child id s = true <-> id ∈ ids s.
Proof.
  unfold has_child, ids. rewrite existsb_exists, list_elem_of_In, in_map_iff.
  split.
  - intros (c & Hc & Heq). apply String.eqb_eq in Heq. eauto.
  - intros (c & Heq & Hc). exists c. split; [done |]. by apply String.eqb_eq.
Qed.

(** A declaration is appended at the end, and only under a fresh id. *)
Lemma addChild_inv c s s' :
  addChild c s = Ok (tt, s') ->
  (child_id c ∉ ids s) /\ children s' = (children s ++ [c])%list /\
  templateOptions s' = templateOptions s.
Proof.
  unfold addChild. destruct (has_child (child_id c) s) eqn:Hc; [discriminate |].
  intros [= <-]. split; [| done].
  intros Hin. apply has_child_spec in Hin. congruence.
Qed.

(** Construct ids stay unique. *)
Lemma addChild_NoDup c s s' :
  NoDup (ids s) -> addChild c s = Ok (tt, s') -> NoDup (ids s').
Proof.
  intros Hnd Hadd. apply addChild_inv in Hadd as (Hfresh & Hch & _).
  unfold ids in *. rewrite Hch, map_app. simpl.
  apply NoDup_app. split; [done |]. split.
  - intros x Hx Hx'. apply list_elem_of_singleton in Hx'. by subst.
  - apply NoDup_singleton.
Qed.

Lemma override_child_id h l c : child_id (override_child h l c) = child_id c.
Proof.
  destruct c as [p | m | n | o]; simpl; try reflexivity.
  by destruct (String.eqb (o_id o) h).
Qed.

(** Overriding a logical id renames no construct and touches no
    parameter. *)
Lemma overrideLogicalId_ids h l s s' :
  overrideLogicalId h l s = Ok (tt, s') -> ids s' = ids s.
Proof.
  intros [= <-]. unfold ids. simpl. rewrite map_map.
  apply map_ext. intros c. apply override_child_id.
Qed.

Lemma overrideLogicalId_parameters h l s s' :
  overrideLogicalId h l s = Ok (tt, s') -> parameters_of s' = parameters_of s.
Proof.
  intros [= <-]. unfold parameters_of. simpl.
  induction (children s) as [| c cs IH]; [reflexivity |].
  destruct c as [p | m | n | o]; simpl.
  - f_equal. exact IH.
  - exact IH.
  - exact IH.
  - destruct (String.eqb (o_id o) h); exact IH.
Qed.

(** The string view of a parameter is a reference to it, and exists
    for strings and numbers, not for lists. *)
Lemma valueAsString_Number p :
  type (p_props p) = "Number" -> valueAsString p = Ok (Ref (p_logicalId p)).
Proof. unfold valueAsString. by intros ->. Qed.

Lemma valueAsString_list p :
  isListType (type (p_props p)) = true ->
  valueAsString p = Throw (NotAStringType (type (p_props p))).
Proof.
  unfold valueAsString, isStringType, isNumberType. intros Hl. rewrite Hl. simpl.
  destruct (String.eqb_spec (type (p_props p)) "Number") as [Heq | _]; [| done].
  by rewrite Heq in Hl.
Qed.

Lemma valueAsString_String p :
  type (p_props p) = "String" -> valueAsString p = Ok (Ref (p_logicalId p)).
Proof. unfold valueAsString. by intros ->. Qed.

End CdkFacts.

(** ** Running the constructor *)

(** The model of the nested construct taken from the specification
    honours the contract. *)
Lemma spec_honours_contract : honours_contract ServerlessImageHandler_spec.
Proof.
  intros props. eexists _, _, _. repeat split; reflexivity.
Defined.

(** Without the two conditions the constructor stops at the first
    lookup. *)
Example bare_handler_fails md id :
  ConstructsStack ServerlessImageHandler_bare md id
  = Throw (NoSuchChild "DeployDemoUICondition").
Proof. reflexivity. Qed.

Lemma built_intro sih md id (P : Stack -> Prop) s :
  ConstructsStack sih md id = Ok s -> P s ->
  exists s', ConstructsStack sih md id = Ok s' /\ P s'.
Proof. eauto. Qed.

Ltac step_constructor :=
  cbv beta iota zeta delta
    -[description_text Js.to_string String.append
      LogRetentionPeriod_allowedValues Cdk.findChild].

Ltac use_lookup Hfind :=
  unfold Cdk.findChild at 1; cbv beta iota zeta delta [n_children];
  rewrite Hfind; step_constructor.

(** The props the constructor hands to the nested construct. *)
Ltac props_of sih md id :=
  let t := eval cbv beta iota zeta delta
             -[description_text Js.to_string String.append
               LogRetentionPeriod_allowedValues Cdk.findChild]
           in (constructor sih md (Cdk.newStack id)) in
  lazymatch t with context [sih ?p] => p end.

(** On a goal [exists s, ConstructsStack sih md id = Ok s /\ P s]:
    runs the constructor statement by statement under the contract [H]
    and leaves [P] at the stack it built. *)
Ltac run_constructor sih H kids demo cors Hdemo Hcors :=
  lazymatch goal with
  | |- exists s, ConstructsStack sih ?md ?id = Ok s /\ _ =>
      let p := props_of sih md id in
      let Hkids := fresh "Hkids" in
      destruct (H p) as (kids & demo & cors & Hkids & Hdemo & Hcors);
      eapply built_intro;
      [ unfold ConstructsStack, constructor; step_constructor;
        rewrite Hkids; use_lookup Hdemo; use_lookup Hcors; reflexivity
      | clear Hkids; cbv beta ]
  end.

(** Under the contract the constructor returns a stack. *)
Lemma ConstructsStack_total sih md id :
  honours_contract sih -> exists s, ConstructsStack sih md id = Ok s /\ True.
Proof.
  intros H. run_constructor sih H kids demo cors Hdemo Hcors. exact I.
Qed.

(** Changes of the environment after the module is loaded do not reach
    the module's constant. *)
Lemma module_scope_fold later : forall w,
  module_scope (fold_left env_step later w) = module_scope w.
Proof.
  induction later as [| a later IH]; intros w; simpl.
  - reflexivity.
  - rewrite IH. by destruct a.
Qed.

Lemma run_load_time sih env later id :
  run sih env later id = ConstructsStack sih (load_module env) id.
Proof.
  unfold run, build. by rewrite module_scope_fold.
Qed.

(** The only statement that reads the module's constant is the one
    that sets the description. *)
Lemma description_of_built sih md id :
  honours_contract sih ->
  exists s, ConstructsStack sih md id = Ok s /\
    t_description (templateOptions s)
      = Some (description_text +:+ Js.to_string (VERSION md)) /\
    templateFormatVersion (templateOptions s) = Some "2010-09-09".
Proof.
  intros H. run_constructor sih H kids demo cors Hdemo Hcors.
  split; reflexivity.
Qed.

(** ** Version and description *)

(** C8: the value of VERSION is used as it is. For every value [v] of
    the variable when the module is loaded, the stack is built, its
    description is the fixed text followed by exactly [v], and its
    template format version is 2010-09-09. *)
Theorem C8_version_verbatim sih env later id v :
  honours_contract sih ->
  env !! "VERSION" = Some v ->
  exists s, run sih env later id = Ok s /\
    t_description (templateOptions s) = Some (description_text +:+ v) /\
    templateFormatVersion (templateOptions s) = Some "2010-09-09".
Proof.
  intros H Hv. rewrite run_load_time.
  destruct (description_of_built sih (load_module env) id H) as (s & Hs & Hd & Hf).
  exists s. split; [done |]. split; [| done].
  rewrite Hd. unfold load_module. simpl. by rewrite Hv.
Qed.

Lemma C8_version_verbatim_witness :
  exists s, run ServerlessImageHandler_spec
              (<["VERSION" := "v5.1.0"]> ∅) [] "ConstructsStack" = Ok s /\
    t_description (templateOptions s) = Some (description_text +:+ "v5.1.0") /\
    templateFormatVersion (templateOptions s) = Some "2010-09-09".
Proof.
  apply C8_version_verbatim.
  - exact spec_honours_contract.
  - vm_compute. reflexivity.
Defined.

(** C10: VERSION is read from the environment when the module is
    loaded, before the constructor runs, and not again: whatever
    happens to the environment afterwards, the stack is built and its
    description ends with the value VERSION had at the load, and with
    the text undefined when VERSION was unset then. *)
Theorem C10_version_read_at_load sih env later id :
  honours_contract sih ->
  exists s, run sih env later id = Ok s /\
    (forall v, env !! "VERSION" = Some v ->
       t_description (templateOptions s) = Some (description_text +:+ v)) /\
    (env !! "VERSION" = None ->
       t_description (templateOptions s)
       = Some (description_text +:+ "undefined")).
Proof.
  intros H. rewrite run_load_time.
  destruct (description_of_built sih (load_module env) id H) as (s & Hs & Hd & _).
  exists s. split; [done |].
  rewrite Hd. unfold load_module. simpl.
  split; [intros v Hv | intros Hv]; by rewrite Hv.
Qed.

Lemma C10_version_read_at_load_witness :
  honours_contract ServerlessImageHandler_spec /\
  exists s, run ServerlessImageHandler_spec
              (<["HOME" := "/root"]> ∅) [SetEnv "VERSION" "v5.1.0"]
              "ConstructsStack" = Ok s /\
    (forall v, (<["HOME" := "/root"]> ∅ : gmap string string) !! "VERSION" = Some v ->
       t_description (templateOptions s) = Some (description_text +:+ v)) /\
    ((<["HOME" := "/root"]> ∅ : gmap string string) !! "VERSION" = None ->
       t_description (templateOptions s)
       = Some (description_text +:+ "undefined")).
Proof.
  split; [exact spec_honours_contract |].
  apply C10_version_read_at_load. exact spec_honours_contract.
Defined.

(** Set at the load and deleted afterwards, VERSION still ends the
    description. *)
Example version_deleted_after_load :
  exists s, run ServerlessImageHandler_spec
              (<["VERSION" := "v5.1.0"]> ∅) [DeleteEnv "VERSION"]
              "ConstructsStack" = Ok s /\
    t_description (templateOptions s) = Some (description_text +:+ "v5.1.0").
Proof. eexists. split; vm_compute; reflexivity. Qed.

(** ** Parameters *)

Ltac each_parameter :=
  repeat first [apply Forall_nil_2 | apply Forall_cons_2].

(** C3, as the stack declares it: each of the six parameters registers
    a name, a type (String or Number), a description and a default;
    each of them except CorsOrigin declares an enumerated set of
    allowed values or the pattern of the non-empty strings; CorsOrigin
    declares neither. *)
Theorem C3_parameters_declared sih md id :
  honours_contract sih ->
  exists s, ConstructsStack sih md id = Ok s /\
    length (parameters_of s) = 6 /\
    Forall registered (parameters_of s) /\
    Forall (fun p => p_logicalId p <> "CorsOrigin" -> constrained p)
           (parameters_of s) /\
    exists p, find_parameter s "CorsOrigin" = Some p /\ unconstrained p.
Proof.
  intros H. run_constructor sih H kids demo cors Hdemo Hcors.
  cbn [parameters_of children omap list_omap find_parameter find].
  split; [reflexivity |]. split; [| split].
  - each_parameter; unfold registered; simpl; repeat split;
      first [discriminate | reflexivity | by left | by right | by eauto].
  - each_parameter; unfold constrained; simpl; intros Hne;
      try (left; by eauto); try (by right); by destruct Hne.
  - eexists. split; [reflexivity |]. by split.
Qed.

Lemma C3_parameters_declared_witness :
  honours_contract ServerlessImageHandler_spec /\
  exists s, ConstructsStack ServerlessImageHandler_spec
              (mkModuleScope (Some "v5.1.0")) "ConstructsStack" = Ok s /\
    length (parameters_of s) = 6 /\
    Forall registered (parameters_of s) /\
    Forall (fun p => p_logicalId p <> "CorsOrigin" -> constrained p)
           (parameters_of s) /\
    exists p, find_parameter s "CorsOrigin" = Some p /\ unconstrained p.
Proof.
  split; [exact spec_honours_contract |].
  apply C3_parameters_declared. exact spec_honours_contract.
Defined.

(** C3 as the specification words it fails: in the reference stack
    not every parameter is declared with a constraint, CorsOrigin has
    neither an allowed-value set nor a pattern. *)
Lemma C3_CorsOrigin_has_no_constraint :
  exists s, reference_stack (Some "v5.1.0") = Ok s /\
    ~ Forall (fun p => registered p /\ constrained p) (parameters_of s).
Proof.
  eexists. split; [vm_compute; reflexivity |].
  cbn [parameters_of children omap list_omap].
  intros HF.
  apply Forall_cons_1 in HF as [_ HF].
  apply Forall_cons_1 in HF as [[_ Hc] _].
  destruct Hc as [[vs Hvs] | Hpat]; simpl in *; discriminate.
Qed.

(** C4: the default of each of the six parameters satisfies the
    constraint the parameter itself declares: it is a member of the
    allowed values when the parameter declares them, and it matches the
    allowed pattern when the parameter declares one. *)
Theorem C4_defaults_satisfy_constraints sih md id :
  honours_contract sih ->
  exists s, ConstructsStack sih md id = Ok s /\
    length (parameters_of s) = 6 /\
    Forall (fun p => exists d, default_ (p_props p) = Some d /\
                               Cfn.satisfies (p_props p) d)
           (parameters_of s).
Proof.
  intros H. run_constructor sih H kids demo cors Hdemo Hcors.
  cbn [parameters_of children omap list_omap].
  split; [reflexivity |].
  each_parameter; (eexists; split; [reflexivity |]);
    split; simpl; intros x [= <-].
  - by apply (bool_decide_unpack _).
  - apply CfnFacts.dot_plus_matches. split; [discriminate |].
    unfold Cfn.plain. simpl. by repeat constructor.
  - by apply (bool_decide_unpack _).
  - by apply (bool_decide_unpack _).
  - by apply (bool_decide_unpack _).
Qed.

Lemma C4_defaults_satisfy_constraints_witness :
  honours_contract ServerlessImageHandler_spec /\
  exists s, ConstructsStack ServerlessImageHandler_spec
              (mkModuleScope (Some "v5.1.0")) "ConstructsStack" = Ok s /\
    length (parameters_of s) = 6 /\
    Forall (fun p => exists d, default_ (p_props p) = Some d /\
                               Cfn.satisfies (p_props p) d)
           (parameters_of s).
Proof.
  split; [exact spec_honours_contract |].
  apply C4_defaults_satisfy_constraints. exact spec_honours_contract.
Defined.

(** C9: LogRetentionPeriod is declared with type Number and with the
    seventeen allowed values 1, 3, 5, 7, 14, 30, 60, 90, 120, 150, 180,
    365, 400, 545, 731, 1827 and 3653; every other declared parameter
    has type String. *)
Theorem C9_log_retention_period sih md id :
  honours_contract sih ->
  exists s, ConstructsStack sih md id = Ok s /\
    (exists p vs,
        find_parameter s "LogRetentionPeriod" = Some p /\
        type (p_props p) = "Number" /\
        allowedValues (p_props p) = Some vs /\
        length vs = 17 /\
        map Cfn.parse_number vs
        = map Some [1; 3; 5; 7; 14; 30; 60; 90; 120; 150; 180; 365; 400;
                    545; 731; 1827; 3653]%Z) /\
    Forall (fun q => p_logicalId q <> "LogRetentionPeriod" ->
                     type (p_props q) = "String")
           (parameters_of s).
Proof.
  intros H. run_constructor sih H kids demo cors Hdemo Hcors.
  cbn [parameters_of children omap list_omap find_parameter].
  split.
  - eexists _, _. split; [reflexivity |]. simpl.
    repeat split; reflexivity.
  - each_parameter; simpl; intros Hne; first [reflexivity | by destruct Hne].
Qed.

Lemma C9_log_retention_period_witness :
  honours_contract ServerlessImageHandler_spec /\
  exists s, ConstructsStack ServerlessImageHandler_spec
              (mkModuleScope None) "ConstructsStack" = Ok s /\
    (exists p vs,
        find_parameter s "LogRetentionPeriod" = Some p /\
        type (p_props p) = "Number" /\
        allowedValues (p_props p) = Some vs /\
        length vs = 17 /\
        map Cfn.parse_number vs
        = map Some [1; 3; 5; 7; 14; 30; 60; 90; 120; 150; 180; 365; 400;
                    545; 731; 1827; 3653]%Z) /\
    Forall (fun q => p_logicalId q <> "LogRetentionPeriod" ->
                     type (p_props q) = "String")
           (parameters_of s).
Proof.
  split; [exact spec_honours_contract |].
  apply C9_log_retention_period. exact spec_honours_contract.
Defined.

(** C6: with every parameter left at its default the values are
    CorsEnabled = No, SourceBuckets = the placeholder text,
    DeployDemoUI = Yes, LogRetentionPeriod = 1 and AutoWebP = No. *)
Theorem C6_defaults sih md id :
  honours_contract sih ->
  exists s, ConstructsStack sih md id = Ok s /\
    Cfn.deployed_value s ∅ "CorsEnabled" = Some (Cfn.PString "No") /\
    Cfn.deployed_value s ∅ "SourceBuckets"
      = Some (Cfn.PString "defaultBucket, bucketNo2, bucketNo3, ...") /\
    Cfn.deployed_value s ∅ "DeployDemoUI" = Some (Cfn.PString "Yes") /\
    Cfn.deployed_value s ∅ "LogRetentionPeriod" = Some (Cfn.PNumber 1) /\
    Cfn.deployed_value s ∅ "AutoWebP" = Some (Cfn.PString "No").
Proof.
  intros H. run_constructor sih H kids demo cors Hdemo Hcors.
  unfold Cfn.deployed_value.
  cbn [parameters_of children omap list_omap find_parameter].
  repeat split; simpl find; unfold Cfn.parameter_value, Cfn.effective_value;
    cbn [mbind option_bind p_logicalId p_props default_ type];
    rewrite lookup_empty; reflexivity.
Qed.

Lemma C6_defaults_witness :
  honours_contract ServerlessImageHandler_spec /\
  exists s, ConstructsStack ServerlessImageHandler_spec
              (mkModuleScope (Some "v5.1.0")) "ConstructsStack" = Ok s /\
    Cfn.deployed_value s ∅ "CorsEnabled" = Some (Cfn.PString "No") /\
    Cfn.deployed_value s ∅ "SourceBuckets"
      = Some (Cfn.PString "defaultBucket, bucketNo2, bucketNo3, ...") /\
    Cfn.deployed_value s ∅ "DeployDemoUI" = Some (Cfn.PString "Yes") /\
    Cfn.deployed_value s ∅ "LogRetentionPeriod" = Some (Cfn.PNumber 1) /\
    Cfn.deployed_value s ∅ "AutoWebP" = Some (Cfn.PString "No").
Proof.
  split; [exact spec_honours_contract |].
  apply C6_defaults. exact spec_honours_contract.
Defined.

(** ** Parameter groups *)

(** C1, as the stack declares it: the interface metadata holds the
    four groups CORS Options, Image Sources, Demo UI and Event Logging
    in that order; every declared parameter other than AutoWebP is
    listed in exactly one group, no name is listed twice, and every
    listed name is a declared parameter. *)
Theorem C1_groups_cover_all_but_AutoWebP sih md id :
  honours_contract sih ->
  exists s, ConstructsStack sih md id = Ok s /\
    map Label (parameter_groups s)
      = ["CORS Options"; "Image Sources"; "Demo UI"; "Event Logging"] /\
    NoDup (grouped_parameters s) /\
    (forall x, x ∈ declared_parameters s -> x <> "AutoWebP" ->
               length (groups_holding x (map Parameters (parameter_groups s))) = 1) /\
    (forall g, g ∈ map Parameters (parameter_groups s) ->
               forall x, x ∈ g -> x ∈ declared_parameters s).
Proof.
  intros H. run_constructor sih H kids demo cors Hdemo Hcors.
  unfold grouped_parameters, declared_parameters, parameter_groups.
  cbn [parameters_of children omap list_omap templateOptions metadata
       default map Parameters Label p_logicalId concat app].
  split; [reflexivity |]. split; [| split].
  - apply (bool_decide_unpack _). vm_compute. exact I.
  - refine (proj1 (Forall_forall _ _) _). each_parameter; intros Hne;
      first [reflexivity | by destruct Hne].
  - simpl. refine (proj1 (Forall_forall _ _) _).
    each_parameter; refine (proj1 (Forall_forall _ _) _); each_parameter;
      apply (bool_decide_unpack _); vm_compute; exact I.
Qed.

Lemma C1_groups_cover_all_but_AutoWebP_witness :
  honours_contract ServerlessImageHandler_spec /\
  exists s, ConstructsStack ServerlessImageHandler_spec
              (mkModuleScope (Some "v5.1.0")) "ConstructsStack" = Ok s /\
    map Label (parameter_groups s)
      = ["CORS Options"; "Image Sources"; "Demo UI"; "Event Logging"] /\
    NoDup (grouped_parameters s) /\
    (forall x, x ∈ declared_parameters s -> x <> "AutoWebP" ->
               length (groups_holding x (map Parameters (parameter_groups s))) = 1) /\
    (forall g, g ∈ map Parameters (parameter_groups s) ->
               forall x, x ∈ g -> x ∈ declared_parameters s).
Proof.
  split; [exact spec_honours_contract |].
  apply C1_groups_cover_all_but_AutoWebP. exact spec_honours_contract.
Defined.

(** C1 as the specification words it fails: in the reference stack
    the groups do not partition the declared parameters, the declared
    parameter AutoWebP is listed in no group. *)
Lemma C1_AutoWebP_in_no_group :
  exists s, reference_stack (Some "v5.1.0") = Ok s /\
    "AutoWebP" ∈ declared_parameters s /\
    groups_holding "AutoWebP" (map Parameters (parameter_groups s)) = [] /\
    ~ partitions (map Parameters (parameter_groups s)) (declared_parameters s).
Proof.
  eexists. split; [vm_compute; reflexivity |].
  match goal with
  | |- _ ∈ ?l /\ _ => assert (Hin : "AutoWebP" ∈ l)
  end.
  { apply (bool_decide_unpack _). vm_compute. exact I. }
  split; [exact Hin |]. split; [reflexivity |].
  intros [Hone _]. specialize (Hone _ Hin). discriminate Hone.
Qed.

(** ** Outputs *)

(** C2, as the stack declares it: the stack holds exactly six outputs,
    ApiEndpoint, DemoUrl, SourceBucketsOutput, CorsEnabledOutput,
    CorsOriginOutput and LogRetentionPeriodOutput, each once; exactly
    four of them have their identifier overridden and expose
    SourceBuckets, CorsEnabled, CorsOrigin and LogRetentionPeriod
    instead of the name they were constructed under; the other two
    expose their construction name. *)
Theorem C2_six_outputs sih md id :
  honours_contract sih ->
  exists s, ConstructsStack sih md id = Ok s /\
    map o_id (outputs_of s)
      = ["ApiEndpoint"; "DemoUrl"; "SourceBucketsOutput"; "CorsEnabledOutput";
         "CorsOriginOutput"; "LogRetentionPeriodOutput"] /\
    NoDup (map o_id (outputs_of s)) /\
    NoDup (map o_logicalId (outputs_of s)) /\
    map (fun o => (o_id o, o_logicalId o)) (List.filter overridden (outputs_of s))
      = [("SourceBucketsOutput", "SourceBuckets");
         ("CorsEnabledOutput", "CorsEnabled");
         ("CorsOriginOutput", "CorsOrigin");
         ("LogRetentionPeriodOutput", "LogRetentionPeriod")] /\
    map o_logicalId (List.filter (fun o => negb (overridden o)) (outputs_of s))
      = ["ApiEndpoint"; "DemoUrl"].
Proof.
  intros H. run_constructor sih H kids demo cors Hdemo Hcors.
  cbn [outputs_of children omap list_omap map o_id o_logicalId].
  split; [reflexivity |].
  split; [apply (bool_decide_unpack _); vm_compute; exact I |].
  split; [apply (bool_decide_unpack _); vm_compute; exact I |].
  split; reflexivity.
Qed.

Lemma C2_six_outputs_witness :
  honours_contract ServerlessImageHandler_spec /\
  exists s, ConstructsStack ServerlessImageHandler_spec
              (mkModuleScope (Some "v5.1.0")) "ConstructsStack" = Ok s /\
    map o_id (outputs_of s)
      = ["ApiEndpoint"; "DemoUrl"; "SourceBucketsOutput"; "CorsEnabledOutput";
         "CorsOriginOutput"; "LogRetentionPeriodOutput"] /\
    NoDup (map o_id (outputs_of s)) /\
    NoDup (map o_logicalId (outputs_of s)) /\
    map (fun o => (o_id o, o_logicalId o)) (List.filter overridden (outputs_of s))
      = [("SourceBucketsOutput", "SourceBuckets");
         ("CorsEnabledOutput", "CorsEnabled");
         ("CorsOriginOutput", "CorsOrigin");
         ("LogRetentionPeriodOutput", "LogRetentionPeriod")] /\
    map o_logicalId (List.filter (fun o => negb (overridden o)) (outputs_of s))
      = ["ApiEndpoint"; "DemoUrl"].
Proof.
  split; [exact spec_honours_contract |].
  apply C2_six_outputs. exact spec_honours_contract.
Defined.

(** C2 as the specification words it fails: the reference stack
    holds six outputs, not five, and four of them are overridden, not
    three. *)
Lemma C2_not_five_outputs_nor_three_overridden :
  exists s, reference_stack (Some "v5.1.0") = Ok s /\
    length (outputs_of s) <> 5 /\
    length (List.filter overridden (outputs_of s)) <> 3.
Proof.
  eexists. split; [vm_compute; reflexivity |].
  split; vm_compute; discriminate.
Qed.

(** ** Conditions on outputs *)

Lemma findChild_id node id c : Cdk.findChild node id = Ok c -> sub_id c = id.
Proof.
  unfold Cdk.findChild. destruct (find _ _) as [c' |] eqn:Hf; [| discriminate].
  intros [= ->]. apply find_some in Hf as [_ Heq]. by apply String.eqb_eq.
Qed.

Lemma findChild_found node id c :
  find (fun c => String.eqb (sub_id c) id) (n_children node) = Some c ->
  Cdk.findChild node id = Ok c.
Proof. unfold Cdk.findChild. by intros ->. Qed.

(** C5: the output DemoUrl carries the condition found under the name
    DeployDemoUICondition in the nested construct and is emitted
    exactly when that condition evaluates to true; the output
    CorsOriginOutput carries the condition found under the name
    EnableCorsCondition and is emitted exactly when that one evaluates
    to true; the other outputs carry no condition and are always
    emitted. *)
Theorem C5_conditional_outputs sih md id :
  honours_contract sih ->
  exists s, ConstructsStack sih md id = Ok s /\
    exists node demo cors demoUrl corsOrigin,
      ChConstruct node ∈ children s /\
      n_id node = "ServerlessImageHandler" /\
      Cdk.findChild node "DeployDemoUICondition" = Ok (SubCondition demo) /\
      c_id demo = "DeployDemoUICondition" /\
      Cdk.findChild node "EnableCorsCondition" = Ok (SubCondition cors) /\
      c_id cors = "EnableCorsCondition" /\
      find_output s "DemoUrl" = Some demoUrl /\
      o_condition demoUrl = Some (SubCondition demo) /\
      find_output s "CorsOriginOutput" = Some corsOrigin /\
      o_condition corsOrigin = Some (SubCondition cors) /\
      (forall gates,
          demoUrl ∈ Cfn.emitted_outputs gates s <->
          Cfn.evaluates_true gates demo = true) /\
      (forall gates,
          corsOrigin ∈ Cfn.emitted_outputs gates s <->
          Cfn.evaluates_true gates cors = true) /\
      Forall (fun o => o_id o <> "DemoUrl" -> o_id o <> "CorsOriginOutput" ->
                       o_condition o = None /\
                       forall gates, o ∈ Cfn.emitted_outputs gates s)
             (outputs_of s).
Proof.
  intros H. run_constructor sih H kids demo cors Hdemo Hcors.
  exists (mkConstruct "ServerlessImageHandler" kids), demo, cors.
  pose proof (findChild_found (mkConstruct "ServerlessImageHandler" kids) _ _ Hdemo) as Fd.
  pose proof (findChild_found (mkConstruct "ServerlessImageHandler" kids) _ _ Hcors) as Fc.
  eexists _, _.
  split; [cbn [children]; apply (proj2 (list_elem_of_In _ _)); simpl; tauto |].
  split; [reflexivity |].
  split; [exact Fd |]. split; [exact (findChild_id _ _ _ Fd) |].
  split; [exact Fc |]. split; [exact (findChild_id _ _ _ Fc) |].
  split; [reflexivity |]. split; [reflexivity |].
  split; [reflexivity |]. split; [reflexivity |].
  unfold Cfn.emitted_outputs.
  cbn [outputs_of children omap list_omap].
  split; [| split].
  - intros gates. rewrite list_elem_of_In, filter_In. cbn [Cfn.emitted o_condition].
    split; [tauto |]. intros Hg. split; [simpl; tauto | done].
  - intros gates. rewrite list_elem_of_In, filter_In. cbn [Cfn.emitted o_condition].
    split; [tauto |]. intros Hg. split; [simpl; tauto | done].
  - each_parameter; cbn [o_id o_condition]; intros Hd Hc;
      try (by destruct Hd); try (by destruct Hc);
      (split; [reflexivity |]); intros gates;
      rewrite list_elem_of_In, filter_In; (split; [simpl; tauto | reflexivity]).
Qed.

Lemma C5_conditional_outputs_witness :
  honours_contract ServerlessImageHandler_spec /\
  exists s, ConstructsStack ServerlessImageHandler_spec
              (mkModuleScope (Some "v5.1.0")) "ConstructsStack" = Ok s /\
    exists node demo cors demoUrl corsOrigin,
      ChConstruct node ∈ children s /\
      n_id node = "ServerlessImageHandler" /\
      Cdk.findChild node "DeployDemoUICondition" = Ok (SubCondition demo) /\
      c_id demo = "DeployDemoUICondition" /\
      Cdk.findChild node "EnableCorsCondition" = Ok (SubCondition cors) /\
      c_id cors = "EnableCorsCondition" /\
      find_output s "DemoUrl" = Some demoUrl /\
      o_condition demoUrl = Some (SubCondition demo) /\
      find_output s "CorsOriginOutput" = Some corsOrigin /\
      o_condition corsOrigin = Some (SubCondition cors) /\
      (forall gates,
          demoUrl ∈ Cfn.emitted_outputs gates s <->
          Cfn.evaluates_true gates demo = true) /\
      (forall gates,
          corsOrigin ∈ Cfn.emitted_outputs gates s <->
          Cfn.evaluates_true gates cors = true) /\
      Forall (fun o => o_id o <> "DemoUrl" -> o_id o <> "CorsOriginOutput" ->
                       o_condition o = None /\
                       forall gates, o ∈ Cfn.emitted_outputs gates s)
             (outputs_of s).
Proof.
  split; [exact spec_honours_contract |].
  apply C5_conditional_outputs. exact spec_honours_contract.
Defined.


(** * Further properties of the constructor *)

Ltac step_constructor_in H :=
  cbv beta iota zeta delta
    -[description_text Js.to_string String.append
      LogRetentionPeriod_allowedValues Cdk.findChild] in H.

Ltac case_lookup H kids c Hc :=
  unfold Cdk.findChild at 1 in H; cbv beta iota zeta delta [n_children] in H;
  lazymatch type of H with
  | context [find ?f kids] =>
      destruct (find f kids) as [c |] eqn:Hc; [| discriminate H]
  end;
  step_constructor_in H.

(** From [H : ConstructsStack sih md id = Ok s]: what the nested
    constructor returned, the two children found, and [s] itself. *)
Ltac invert_constructor sih H kids d c Hkids Hd Hc :=
  unfold ConstructsStack, constructor in H; step_constructor_in H;
  lazymatch type of H with
  | context [sih ?p] =>
      destruct (sih p) as [kids | ?] eqn:Hkids; [| discriminate H]
  end;
  case_lookup H kids d Hd; case_lookup H kids c Hc;
  injection H as <-.

(** ** The nested construct *)

(** X1: the nested constructor is called on the six parameters the
    stack declared, each in the field of its name, and the node in the
    tree, named ServerlessImageHandler, holds the children that call
    returned. *)
Theorem X1_props_forwarded sih md id s :
  ConstructsStack sih md id = Ok s ->
  exists props node,
    sihProps_of s = Some props /\
    nested_construct s = Some node /\
    n_id node = "ServerlessImageHandler" /\
    sih props = Ok (n_children node).
Proof.
  intros H. invert_constructor sih H kids d c Hkids Hd Hc.
  eexists _, _. split; [reflexivity |]. split; [reflexivity |].
  split; [reflexivity |]. exact Hkids.
Qed.

Lemma X1_props_forwarded_witness :
  exists s, reference_stack (Some "v5.1.0") = Ok s /\
  exists props node,
    sihProps_of s = Some props /\
    nested_construct s = Some node /\
    n_id node = "ServerlessImageHandler" /\
    ServerlessImageHandler_spec props = Ok (n_children node).
Proof.
  eexists. split; [vm_compute; reflexivity |].
  apply (X1_props_forwarded ServerlessImageHandler_spec
           (mkModuleScope (Some "v5.1.0")) "ConstructsStack").
  vm_compute. reflexivity.
Defined.

(** X2: the stack depends on the nested constructor through that one
    call only: a nested constructor that returns the same on the
    forwarded props builds the same stack. *)
Theorem X2_nested_called_on_forwarded_props sih sih' md id s :
  ConstructsStack sih md id = Ok s ->
  (forall props, sihProps_of s = Some props -> sih' props = sih props) ->
  ConstructsStack sih' md id = Ok s.
Proof.
  intros H Hagree. invert_constructor sih H kids d c Hkids Hd Hc.
  lazymatch type of Hkids with
  | sih ?p = _ => specialize (Hagree p eq_refl)
  end.
  rewrite Hkids in Hagree.
  unfold ConstructsStack, constructor. step_constructor.
  rewrite Hagree. use_lookup Hd. use_lookup Hc. reflexivity.
Qed.

Lemma X2_nested_called_on_forwarded_props_witness :
  exists s,
    reference_stack (Some "v5.1.0") = Ok s /\
    ConstructsStack
      (fun props =>
         if String.eqb (p_id (autoWebPParameter props)) "AutoWebP"
         then ServerlessImageHandler_spec props
         else Throw (Upstream "other props"))
      (mkModuleScope (Some "v5.1.0")) "ConstructsStack" = Ok s.
Proof.
  eexists. split; [vm_compute; reflexivity |].
  apply (X2_nested_called_on_forwarded_props ServerlessImageHandler_spec).
  - vm_compute. reflexivity.
  - intros props [= <-]. reflexivity.
Defined.

(** X3: when the nested construct is built but holds no child named
    DeployDemoUICondition, the constructor fails at that lookup and
    builds no stack. *)
Theorem X3_missing_demo_condition sih md id kids :
  (forall props, sih props = Ok kids) ->
  find (fun c => String.eqb (sub_id c) "DeployDemoUICondition") kids = None ->
  ConstructsStack sih md id = Throw (NoSuchChild "DeployDemoUICondition").
Proof.
  intros Hk Hd. unfold ConstructsStack, constructor. step_constructor.
  rewrite Hk. use_lookup Hd. reflexivity.
Qed.

Lemma X3_missing_demo_condition_witness :
  ConstructsStack ServerlessImageHandler_bare (mkModuleScope None) "ConstructsStack"
  = Throw (NoSuchChild "DeployDemoUICondition").
Proof.
  apply (X3_missing_demo_condition ServerlessImageHandler_bare _ _ []).
  - intros props. reflexivity.
  - reflexivity.
Defined.

(** X4: when the nested construct holds a child named
    DeployDemoUICondition but none named EnableCorsCondition, the
    constructor fails at the second lookup and builds no stack. *)
Theorem X4_missing_cors_condition sih md id kids d :
  (forall props, sih props = Ok kids) ->
  find (fun c => String.eqb (sub_id c) "DeployDemoUICondition") kids = Some d ->
  find (fun c => String.eqb (sub_id c) "EnableCorsCondition") kids = None ->
  ConstructsStack sih md id = Throw (NoSuchChild "EnableCorsCondition").
Proof.
  intros Hk Hd Hc. unfold ConstructsStack, constructor. step_constructor.
  rewrite Hk. use_lookup Hd. use_lookup Hc. reflexivity.
Qed.

Lemma X4_missing_cors_condition_witness :
  ConstructsStack ServerlessImageHandler_no_cors (mkModuleScope None) "ConstructsStack"
  = Throw (NoSuchChild "EnableCorsCondition").
Proof.
  eapply (X4_missing_cors_condition ServerlessImageHandler_no_cors).
  - intros props. reflexivity.
  - reflexivity.
  - reflexivity.
Defined.

(** X5: an error raised by the nested constructor is the error of the
    stack's constructor: nothing is caught and no stack is built. *)
Theorem X5_nested_error sih md id e :
  (forall props, sih props = Throw e) -> ConstructsStack sih md id = Throw e.
Proof.
  intros H. unfold ConstructsStack, constructor. step_constructor.
  rewrite H. reflexivity.
Qed.

Lemma X5_nested_error_witness :
  ConstructsStack ServerlessImageHandler_failing (mkModuleScope None) "ConstructsStack"
  = Throw (Upstream "image handler").
Proof.
  apply X5_nested_error. intros props. reflexivity.
Defined.

(** X6: the two lookups take whatever child is registered under the
    name: the constructor succeeds with any kind of child, a resource
    as well as a condition, and attaches it to the output as its
    condition without a check. *)
Theorem X6_lookup_unchecked sih md id kids d c :
  (forall props, sih props = Ok kids) ->
  find (fun c => String.eqb (sub_id c) "DeployDemoUICondition") kids = Some d ->
  find (fun c => String.eqb (sub_id c) "EnableCorsCondition") kids = Some c ->
  exists s demoUrl corsOrigin,
    ConstructsStack sih md id = Ok s /\
    find_output s "DemoUrl" = Some demoUrl /\
    o_condition demoUrl = Some d /\
    find_output s "CorsOriginOutput" = Some corsOrigin /\
    o_condition corsOrigin = Some c.
Proof.
  intros Hk Hd Hc. eexists _, _, _. split.
  - unfold ConstructsStack, constructor. step_constructor.
    rewrite Hk. use_lookup Hd. use_lookup Hc. reflexivity.
  - repeat split; reflexivity.
Qed.

Lemma X6_lookup_unchecked_witness :
  exists s demoUrl corsOrigin,
    ConstructsStack ServerlessImageHandler_miscast (mkModuleScope None)
      "ConstructsStack" = Ok s /\
    find_output s "DemoUrl" = Some demoUrl /\
    o_condition demoUrl
      = Some (SubResource (mkCfnResource "DeployDemoUICondition" "DemoBucket"
                             "AWS::S3::Bucket")) /\
    find_output s "CorsOriginOutput" = Some corsOrigin /\
    o_condition corsOrigin
      = Some (SubCondition (mkCfnCondition "EnableCorsCondition"
                              "EnableCorsCondition")).
Proof.
  eapply (X6_lookup_unchecked ServerlessImageHandler_miscast).
  - intros props. reflexivity.
  - reflexivity.
  - reflexivity.
Defined.

(** ** Outputs and the parameters they expose *)

Ltac each_output := each_parameter.

(** X8: the outputs whose value is a reference are exactly the
    overridden ones, and each of them refers to a parameter the stack
    declares and is exposed under the logical id of that parameter. *)
Theorem X8_reference_outputs sih md id s :
  ConstructsStack sih md id = Ok s ->
  Forall (fun o =>
            (overridden o = true <-> exists x, o_value o = Ref x) /\
            forall x, o_value o = Ref x ->
                      o_logicalId o = x /\ x ∈ declared_parameters s)
         (outputs_of s).
Proof.
  intros H. invert_constructor sih H kids d c Hkids Hd Hc.
  unfold declared_parameters.
  cbn [outputs_of parameters_of children omap list_omap map p_logicalId].
  each_output; simpl; (split; [split |]);
    first
      [ by intros [=]
      | by intros [? [=]]
      | by intros ? [=]
      | by (intros _; eexists)
      | done
      | intros ? [= <-]; split;
        [reflexivity | apply (bool_decide_unpack _); vm_compute; exact I] ].
Qed.

Lemma X8_reference_outputs_witness :
  exists s, reference_stack None = Ok s /\
  Forall (fun o =>
            (overridden o = true <-> exists x, o_value o = Ref x) /\
            forall x, o_value o = Ref x ->
                      o_logicalId o = x /\ x ∈ declared_parameters s)
         (outputs_of s).
Proof.
  eexists. split; [vm_compute; reflexivity |].
  apply (X8_reference_outputs ServerlessImageHandler_spec
           (mkModuleScope None) "ConstructsStack").
  vm_compute. reflexivity.
Defined.

(** ** The values a deployment may supply *)

Lemma line_terminator_false a :
  Cfn.line_terminator a = false <-> a <> "010"%char /\ a <> "013"%char.
Proof.
  unfold Cfn.line_terminator. rewrite orb_false_iff.
  by rewrite !Ascii.eqb_neq.
Qed.

(** X10: among the values written in ASCII, the ones accepted for
    SourceBuckets are the non-empty ones that hold neither a line feed
    nor a carriage return; the empty value is refused. *)
Theorem X10_SourceBuckets_accepts sih md id s :
  ConstructsStack sih md id = Ok s ->
  exists p, find_parameter s "SourceBuckets" = Some p /\
    forall v, Cfn.ascii_only v ->
      (Cfn.satisfies (p_props p) v <->
       v <> "" /\
       Forall (fun a => a <> "010"%char /\ a <> "013"%char)
              (list_ascii_of_string v)).
Proof.
  intros H. invert_constructor sih H kids d c Hkids Hd Hc.
  eexists. split; [reflexivity |]. intros v _.
  assert (Hplain : Cfn.plain (list_ascii_of_string v) <->
                   Forall (fun a => a <> "010"%char /\ a <> "013"%char)
                          (list_ascii_of_string v)).
  { unfold Cfn.plain. apply Forall_iff. intros a. apply line_terminator_false. }
  rewrite <- Hplain. unfold Cfn.satisfies. simpl. split.
  - intros [_ Hp]. apply CfnFacts.dot_plus_matches. by apply Hp.
  - intros Hv. split; [by intros vs [=] |].
    intros pat [= <-]. by apply CfnFacts.dot_plus_matches.
Qed.

Lemma X10_SourceBuckets_accepts_witness :
  exists s, reference_stack None = Ok s /\
  exists p, find_parameter s "SourceBuckets" = Some p /\
    forall v, Cfn.ascii_only v ->
      (Cfn.satisfies (p_props p) v <->
       v <> "" /\
       Forall (fun a => a <> "010"%char /\ a <> "013"%char)
              (list_ascii_of_string v)).
Proof.
  eexists. split; [vm_compute; reflexivity |].
  apply (X10_SourceBuckets_accepts ServerlessImageHandler_spec
           (mkModuleScope None) "ConstructsStack").
  vm_compute. reflexivity.
Defined.

(** The empty value and a value of two lines are refused, a plain
    bucket list is accepted. *)
Example SourceBuckets_samples :
  Cfn.matches_pattern ".+" "" = false /\
  Cfn.matches_pattern ".+" (String "a" (String "010" "b")) = false /\
  Cfn.matches_pattern ".+" "my-bucket, other-bucket" = true.
Proof. repeat split; reflexivity. Qed.

(** X11: the values accepted for CorsEnabled, DeployDemoUI and AutoWebP
    are Yes and No, written exactly so, and nothing else. *)
Theorem X11_toggles_accept_Yes_No sih md id s :
  ConstructsStack sih md id = Ok s ->
  Forall (fun name =>
            exists p, find_parameter s name = Some p /\
              forall v, Cfn.satisfies (p_props p) v <-> v = "Yes" \/ v = "No")
         ["CorsEnabled"; "DeployDemoUI"; "AutoWebP"].
Proof.
  intros H. invert_constructor sih H kids d c Hkids Hd Hc.
  each_parameter; (eexists; split; [reflexivity |]); intros v;
    unfold Cfn.satisfies; simpl; split.
  all: try (intros [Hv _]; specialize (Hv _ eq_refl);
            apply list_elem_of_In in Hv; simpl in Hv;
            destruct Hv as [<- | [<- | []]]; by auto).
  all: intros [-> | ->]; (split; [| by intros pat [=]]);
    intros vs [= <-]; apply (bool_decide_unpack _); vm_compute; exact I.
Qed.

Lemma X11_toggles_accept_Yes_No_witness :
  exists s, reference_stack None = Ok s /\
  Forall (fun name =>
            exists p, find_parameter s name = Some p /\
              forall v, Cfn.satisfies (p_props p) v <-> v = "Yes" \/ v = "No")
         ["CorsEnabled"; "DeployDemoUI"; "AutoWebP"].
Proof.
  eexists. split; [vm_compute; reflexivity |].
  apply (X11_toggles_accept_Yes_No ServerlessImageHandler_spec
           (mkModuleScope None) "ConstructsStack").
  vm_compute. reflexivity.
Defined.

(** X12: every value is accepted for CorsOrigin, the empty one
    included: the parameter declares no constraint at all. *)
Theorem X12_CorsOrigin_accepts_all sih md id s :
  ConstructsStack sih md id = Ok s ->
  exists p, find_parameter s "CorsOrigin" = Some p /\
    forall v, Cfn.satisfies (p_props p) v.
Proof.
  intros H. invert_constructor sih H kids d c Hkids Hd Hc.
  eexists. split; [reflexivity |]. intros v. by split; intros x [=].
Qed.

Lemma X12_CorsOrigin_accepts_all_witness :
  exists s, reference_stack None = Ok s /\
  exists p, find_parameter s "CorsOrigin" = Some p /\
    forall v, Cfn.satisfies (p_props p) v.
Proof.
  eexists. split; [vm_compute; reflexivity |].
  apply (X12_CorsOrigin_accepts_all ServerlessImageHandler_spec
           (mkModuleScope None) "ConstructsStack").
  vm_compute. reflexivity.
Defined.

Lemma allowed_period_reads_as_number v :
  v ∈ LogRetentionPeriod_allowedValues ->
  exists n, Cfn.typed "Number" v = Some (Cfn.PNumber n) /\ (1 <= n <= 3653)%Z.
Proof.
  intros Hv. apply list_elem_of_In in Hv.
  unfold LogRetentionPeriod_allowedValues in Hv. simpl in Hv.
  repeat (destruct Hv as [<- | Hv];
          [eexists; split; [vm_compute; reflexivity | lia] |]).
  destruct Hv.
Qed.

(** X13: every value accepted for LogRetentionPeriod, whose type is
    Number, reads as a whole number of days between 1 and 3653. *)
Theorem X13_LogRetentionPeriod_accepts_numbers sih md id s :
  ConstructsStack sih md id = Ok s ->
  exists p, find_parameter s "LogRetentionPeriod" = Some p /\
    forall v, Cfn.satisfies (p_props p) v ->
      exists n, Cfn.typed (type (p_props p)) v = Some (Cfn.PNumber n) /\
                (1 <= n <= 3653)%Z.
Proof.
  intros H. invert_constructor sih H kids d c Hkids Hd Hc.
  eexists. split; [reflexivity |]. intros v [Hv _].
  apply allowed_period_reads_as_number. by apply Hv.
Qed.

Lemma X13_LogRetentionPeriod_accepts_numbers_witness :
  exists s, reference_stack None = Ok s /\
  exists p, find_parameter s "LogRetentionPeriod" = Some p /\
    forall v, Cfn.satisfies (p_props p) v ->
      exists n, Cfn.typed (type (p_props p)) v = Some (Cfn.PNumber n) /\
                (1 <= n <= 3653)%Z.
Proof.
  eexists. split; [vm_compute; reflexivity |].
  apply (X13_LogRetentionPeriod_accepts_numbers ServerlessImageHandler_spec
           (mkModuleScope None) "ConstructsStack").
  vm_compute. reflexivity.
Defined.

(** X14: when every supplied value satisfies the constraint of its
    parameter, every declared parameter has a value of its declared
    type at deployment, supplied or default. *)
Theorem X14_parameters_have_values sih md id s supplied :
  ConstructsStack sih md id = Ok s ->
  Forall (fun p => forall v, supplied !! p_logicalId p = Some v ->
                             Cfn.satisfies (p_props p) v)
         (parameters_of s) ->
  Forall (fun p => is_Some (Cfn.parameter_value supplied p)) (parameters_of s).
Proof.
  intros H HF. invert_constructor sih H kids d c Hkids Hd Hc.
  eapply Forall_impl; [apply Forall_and; split; [exact HF |] |
                       intros p [HP HQ]; exact (HQ HP)].
  clear HF. cbn [parameters_of children omap list_omap].
  each_parameter; unfold Cfn.parameter_value, Cfn.effective_value;
    cbn [p_logicalId p_props default_ type allowedValues];
    (destruct (supplied !! _) as [v |]; intros Hsat;
     [specialize (Hsat v eq_refl) | by eexists]).
  all: try by eexists.
  destruct Hsat as [Hv _]. specialize (Hv _ eq_refl).
  destruct (allowed_period_reads_as_number v Hv) as (n & Hn & _).
  simpl. rewrite Hn. by eexists.
Qed.

Lemma X14_parameters_have_values_witness :
  exists s, reference_stack None = Ok s /\
  Forall (fun p => is_Some (Cfn.parameter_value
                              (<["LogRetentionPeriod" := "7"]> ∅) p))
         (parameters_of s).
Proof.
  eexists. split; [vm_compute; reflexivity |].
  apply (X14_parameters_have_values ServerlessImageHandler_spec
           (mkModuleScope None) "ConstructsStack").
  - vm_compute. reflexivity.
  - cbn [parameters_of children omap list_omap].
    each_parameter; intros v Hv; vm_compute in Hv; try discriminate Hv.
    injection Hv as <-. split; [| by intros pat [=]].
    intros vs [= <-]. apply (bool_decide_unpack _). vm_compute. exact I.
Defined.

(** ** The version *)

Lemma append_inj_l p a b : p +:+ a = p +:+ b -> a = b.
Proof.
  induction p as [| ch p IH]; simpl; [done |].
  intros [= Heq]. by apply IH.
Qed.

Lemma ConstructsStack_to_string sih md1 md2 id :
  Js.to_string (VERSION md1) = Js.to_string (VERSION md2) ->
  ConstructsStack sih md1 id = ConstructsStack sih md2 id.
Proof.
  destruct md1 as [v1], md2 as [v2]. simpl. intros Heq.
  unfold ConstructsStack, constructor. step_constructor.
  by rewrite Heq.
Qed.

(** X15: two builds around the same nested construct return the same
    stack exactly when the text of VERSION is the same; an unset
    VERSION and a VERSION set to the word undefined are not told
    apart. *)
Theorem X15_version_told_by_its_text sih md1 md2 id :
  honours_contract sih ->
  (ConstructsStack sih md1 id = ConstructsStack sih md2 id <->
   Js.to_string (VERSION md1) = Js.to_string (VERSION md2)).
Proof.
  intros H. split; [| apply ConstructsStack_to_string].
  destruct (description_of_built sih md1 id H) as (s1 & Hs1 & Hd1 & _).
  destruct (description_of_built sih md2 id H) as (s2 & Hs2 & Hd2 & _).
  rewrite Hs1, Hs2. intros [= <-]. rewrite Hd1 in Hd2.
  injection Hd2 as Hd2. by apply append_inj_l in Hd2.
Qed.

Lemma X15_version_told_by_its_text_witness :
  honours_contract ServerlessImageHandler_spec /\
  ConstructsStack ServerlessImageHandler_spec (mkModuleScope None) "ConstructsStack"
  = ConstructsStack ServerlessImageHandler_spec
      (mkModuleScope (Some "undefined")) "ConstructsStack".
Proof.
  split; [exact spec_honours_contract |].
  apply (X15_version_told_by_its_text ServerlessImageHandler_spec).
  - exact spec_honours_contract.
  - reflexivity.
Defined.

(** X16: VERSION reaches the description and nothing else: two builds
    that differ in VERSION only declare the same children, with the
    same conditions attached, the same template format version and the
    same parameter groups. *)
Theorem X16_version_confined sih md md' id s s' :
  ConstructsStack sih md id = Ok s ->
  ConstructsStack sih md' id = Ok s' ->
  children s = children s' /\
  templateFormatVersion (templateOptions s)
    = templateFormatVersion (templateOptions s') /\
  metadata (templateOptions s) = metadata (templateOptions s').
Proof.
  intros H H'. invert_constructor sih H kids d c Hkids Hd Hc.
  unfold ConstructsStack, constructor in H'. step_constructor_in H'.
  rewrite Hkids in H'.
  unfold Cdk.findChild at 1 in H'. cbv beta iota zeta delta [n_children] in H'.
  rewrite Hd in H'. step_constructor_in H'.
  unfold Cdk.findChild at 1 in H'. cbv beta iota zeta delta [n_children] in H'.
  rewrite Hc in H'. step_constructor_in H'.
  injection H' as <-. repeat split; reflexivity.
Qed.

Lemma X16_version_confined_witness :
  exists s s',
    reference_stack (Some "v5.1.0") = Ok s /\
    reference_stack (Some "v5.2.0") = Ok s' /\
    children s = children s' /\
    templateFormatVersion (templateOptions s)
      = templateFormatVersion (templateOptions s') /\
    metadata (templateOptions s) = metadata (templateOptions s').
Proof.
  eexists _, _.
  split; [vm_compute; reflexivity |]. split; [vm_compute; reflexivity |].
  apply (X16_version_confined ServerlessImageHandler_spec
           (mkModuleScope (Some "v5.1.0")) (mkModuleScope (Some "v5.2.0"))
           "ConstructsStack");
    vm_compute; reflexivity.
Defined.

(** ** The mapping and the tree *)

(** X17: the only entry a lookup in the mappings of the stack finds is
    Send / AnonymousUsage / Data, whose value is Yes; every other
    triple of keys finds nothing. *)
Theorem X17_find_in_map sih md id s :
  ConstructsStack sih md id = Ok s ->
  forall m top second v,
    find_in_map s m top second = Some v <->
    m = "Send" /\ top = "AnonymousUsage" /\ second = "Data" /\ v = "Yes".
Proof.
  intros H. invert_constructor sih H kids d c Hkids Hd Hc.
  intros m top second v. unfold find_in_map.
  cbn [mappings_of children omap list_omap find m_logicalId].
  split.
  - destruct (String.eqb_spec "Send" m) as [<- | Hm]; [| discriminate].
    cbn [mbind option_bind mapping assoc].
    destruct (String.eqb_spec "AnonymousUsage" top) as [<- | Ht]; [| discriminate].
    cbn [mbind option_bind mapping assoc].
    destruct (String.eqb_spec "Data" second) as [<- | Hk]; [| discriminate].
    by intros [= <-].
  - by intros (-> & -> & -> & ->).
Qed.

Lemma X17_find_in_map_witness :
  exists s, reference_stack None = Ok s /\
  forall m top second v,
    find_in_map s m top second = Some v <->
    m = "Send" /\ top = "AnonymousUsage" /\ second = "Data" /\ v = "Yes".
Proof.
  eexists. split; [vm_compute; reflexivity |].
  apply (X17_find_in_map ServerlessImageHandler_spec
           (mkModuleScope None) "ConstructsStack").
  vm_compute. reflexivity.
Defined.

(** X18: the children of a built stack are declared in the order
    parameters, mapping, nested construct, outputs; no construct id
    is taken twice and no two parameters share a logical id. *)
Theorem X18_tree_ids sih md id s :
  ConstructsStack sih md id = Ok s ->
  Cdk.ids s
  = (declared_parameters s ++ ["Send"; "ServerlessImageHandler"]
     ++ map o_id (outputs_of s))%list /\
  NoDup (Cdk.ids s) /\
  NoDup (declared_parameters s).
Proof.
  intros H. invert_constructor sih H kids d c Hkids Hd Hc.
  split; [reflexivity |].
  split; apply (bool_decide_unpack _); vm_compute; exact I.
Qed.

Lemma X18_tree_ids_witness :
  exists s, reference_stack None = Ok s /\
  Cdk.ids s
  = (declared_parameters s ++ ["Send"; "ServerlessImageHandler"]
     ++ map o_id (outputs_of s))%list /\
  NoDup (Cdk.ids s) /\
  NoDup (declared_parameters s).
Proof.
  eexists. split; [vm_compute; reflexivity |].
  apply (X18_tree_ids ServerlessImageHandler_spec
           (mkModuleScope None) "ConstructsStack").
  vm_compute. reflexivity.
Defined.
